(** * r3fsample8: the ping-pong store and the paddle's frame callback

    A shallow embedding of [src/App.js]: the zustand store ([count],
    [welcome], [api.pong], [api.reset]), the three event handlers that
    drive it (paddle collision, ground collision, canvas click) and the
    [useFrame] callback of [Paddle].

    Numbers.  A JavaScript number that the program treats as a score is
    an integer, modelled by [Z]; a number that it treats as a measure
    (impact velocity, pointer coordinate, angle, volume) is modelled by
    an exact rational [Q], compared with [==] ([Qeq]).  Rounding of
    IEEE doubles is not modelled. *)

From Stdlib Require Import String ZArith QArith Qminmax Qpower Qfield Lqa Lia List Bool.
Import ListNotations.

Local Open Scope Z_scope.

(** ** The store *)

Module Store.

(** The data fields of the object built by [create(set => ({ ... }))];
    the [api] field holds the two closures below and is never written. *)
Record GameState : Type := mkState {
  count : Z;
  welcome : bool
}.

(** [{ count: 0, welcome: true }] *)
Definition initial : GameState := {| count := 0; welcome := true |}.

(** The object literal handed to zustand's [set]: only some keys are
    present. *)
Record Partial : Type := mkPartial {
  p_count : option Z;
  p_welcome : option bool
}.

(** zustand's [set] shallow-merges the partial object into the state:
    a key that is present overwrites, an absent key is kept. *)
Definition merge (state : GameState) (p : Partial) : GameState :=
  {| count := match p_count p with Some c => c | None => count state end;
     welcome := match p_welcome p with Some b => b | None => welcome state end |}.

(** The [ping] audio element, as far as the program touches it:
    [currentTime], [volume] and the number of [play()] calls. *)
Record AudioEl : Type := mkAudio {
  currentTime : Q;
  volume : Q;
  plays : nat
}.

(** Observable effects, in the order the program performs them. *)
Inductive Effect : Type :=
| SetCurrentTime (t : Q)
| SetVolume (v : Q)
| Play
| SetState (p : Partial).

Record World : Type := mkWorld {
  store : GameState;
  ping : AudioEl;
  trace : list Effect
}.

(** A small state monad over [World]. *)
Definition M (A : Type) : Type := World -> A * World.

Definition ret {A : Type} (a : A) : M A := fun w => (a, w).

Definition bind {A B : Type} (m : M A) (k : A -> M B) : M B :=
  fun w => let (a, w') := m w in k a w'.

Notation "m ;; k" := (bind m (fun _ => k))
  (at level 61, right associativity).

Definition exec {A : Type} (m : M A) (w : World) : World := snd (m w).

Definition emit (e : Effect) (w : World) : World :=
  {| store := store w; ping := ping w; trace := trace w ++ [e] |}.

(** [ping.currentTime = t] *)
Definition set_currentTime (t : Q) : M unit := fun w =>
  (tt, emit (SetCurrentTime t)
        {| store := store w;
           ping := {| currentTime := t; volume := volume (ping w);
                      plays := plays (ping w) |};
           trace := trace w |}).

(** [ping.volume = v] *)
Definition set_volume (v : Q) : M unit := fun w =>
  (tt, emit (SetVolume v)
        {| store := store w;
           ping := {| currentTime := currentTime (ping w); volume := v;
                      plays := plays (ping w) |};
           trace := trace w |}).

(** [ping.play()] *)
Definition play : M unit := fun w =>
  (tt, emit Play
        {| store := store w;
           ping := {| currentTime := currentTime (ping w);
                      volume := volume (ping w);
                      plays := S (plays (ping w)) |};
           trace := trace w |}).

(** [set(state => partial)] *)
Definition set (f : GameState -> Partial) : M unit := fun w =>
  let p := f (store w) in
  (tt, emit (SetState p)
        {| store := merge (store w) p; ping := ping w; trace := trace w |}).

(** Modelled from the spec: [clamp] is imported from [lodash-es] and is
    not under src; the spec gives [clamp(x, 0, 1)] as
    [max(0, min(1, x))].  Written with the two comparisons of a clamp:
    first against the upper bound, then against the lower one. *)
Definition clamp (number lower upper : Q) : Q :=
  let number := if Qle_bool number upper then number else upper in
  if Qle_bool lower number then number else lower.

(** [velocity > 4] *)
Definition gt4 (velocity : Q) : bool := negb (Qle_bool velocity 4).

(** [pong(velocity) {
      ping.currentTime = 0
      ping.volume = clamp(velocity / 20, 0, 1)
      ping.play()
      if (velocity > 4) set(state => ({ count: state.count + 1 }))
    }] *)
Definition pong (velocity : Q) : M unit :=
  set_currentTime 0 ;;
  set_volume (clamp (velocity / 20) 0 1) ;;
  play ;;
  if gt4 velocity
  then set (fun state =>
              {| p_count := Some (count state + 1); p_welcome := None |})
  else ret tt.

(** [reset: welcome =>
      set(state => ({ welcome, count: welcome ? state.count : 0 }))] *)
Definition reset (welcome : bool) : M unit :=
  set (fun state =>
         {| p_count := Some (if welcome then count state else 0);
            p_welcome := Some welcome |}).

(** The three handlers that call the store. *)
Inductive Event : Type :=
| PaddleCollide (impactVelocity : Q)   (* Paddle: onCollide *)
| GroundCollide                        (* ContactGround: onCollide *)
| Click.                               (* Canvas: onClick *)

(** [onClick = () => welcome && reset(false)] *)
Definition onClick : M unit := fun w =>
  if welcome (store w) then reset false w else (tt, w).

Definition handle (e : Event) : M unit :=
  match e with
  | PaddleCollide impactVelocity => pong impactVelocity
  | GroundCollide => reset true
  | Click => onClick
  end.

Definition step (w : World) (e : Event) : World := exec (handle e) w.

Definition run (es : list Event) (w : World) : World := fold_left step es w.

(** The world at startup: the initial store, a fresh audio element
    (time 0, full volume, never played) and no effect performed. *)
Definition world0 : World :=
  {| store := initial;
     ping := {| currentTime := 0; volume := 1; plays := 0 |};
     trace := [] |}.

End Store.

(** ** The paddle's frame callback *)

Module Paddle.

Local Open Scope Q_scope.

(** [Math.PI] is the double nearest to pi, exactly
    884279719003555 / 2^48. *)
Definition Math_PI : Q := 884279719003555 # 281474976710656.

(** Modelled from the spec: [lerp] is imported from the npm package
    [lerp] and is not under src; the spec's glossary gives it as
    [value += factor * (target - value)]. *)
Definition lerp (v0 v1 t : Q) : Q := v0 + t * (v1 - v0).

(** The smoothing factor [0.2]. *)
Definition factor : Q := 2 # 10.

(** [state.mouse]: the pointer in normalised device coordinates. *)
Record Mouse : Type := mkMouse {
  x : Q;
  y : Q
}.

Record Vec3 : Type := mkVec3 {
  vx : Q;
  vy : Q;
  vz : Q
}.

(** What the callback reads and writes: the two-element array
    [values.current], the pose of the kinematic box ([api.position],
    [api.rotation]) and the rotation of the decorative [model] group. *)
Record PaddleState : Type := mkPaddle {
  values0 : Q;            (* values.current[0] *)
  values1 : Q;            (* values.current[1] *)
  position : Vec3;
  rotation : Vec3;
  model_rotation_x : Q;
  model_rotation_y : Q
}.

(** [(state.mouse.x * Math.PI) / 5] *)
Definition target (mouse : Mouse) : Q := (x mouse * Math_PI) / 5.

(** [useFrame(state => {
      values.current[0] = lerp(values.current[0], (state.mouse.x * Math.PI) / 5, 0.2)
      values.current[1] = lerp(values.current[1], (state.mouse.x * Math.PI) / 5, 0.2)
      api.position.set(state.mouse.x * 10, state.mouse.y * 5, 0)
      api.rotation.set(0, 0, values.current[1])
      model.current.rotation.x = lerp(model.current.rotation.x, welcome ? Math.PI / 2 : 0, 0.2)
      model.current.rotation.y = values.current[0]
    })] *)
Definition useFrame (welcome : bool) (mouse : Mouse) (p : PaddleState)
  : PaddleState :=
  let v0 := lerp (values0 p) (target mouse) factor in
  let v1 := lerp (values1 p) (target mouse) factor in
  {| values0 := v0;
     values1 := v1;
     position := {| vx := x mouse * 10; vy := y mouse * 5; vz := 0 |};
     rotation := {| vx := 0; vy := 0; vz := v1 |};
     model_rotation_x :=
       lerp (model_rotation_x p) (if welcome then Math_PI / 2 else 0) factor;
     model_rotation_y := v0 |}.

(** The paddle before its first frame: [useRef([0, 0])], a body and a
    group at the origin with no rotation. *)
Definition paddle0 : PaddleState :=
  {| values0 := 0;
     values1 := 0;
     position := {| vx := 0; vy := 0; vz := 0 |};
     rotation := {| vx := 0; vy := 0; vz := 0 |};
     model_rotation_x := 0;
     model_rotation_y := 0 |}.

(** One rendered frame: the [welcome] flag the component was rendered
    with and the pointer of that frame. *)
Definition Frame : Type := (bool * Mouse)%type.

Definition render (p : PaddleState) (f : Frame) : PaddleState :=
  useFrame (fst f) (snd f) p.

Definition frames (fs : list Frame) (p : PaddleState) : PaddleState :=
  fold_left render fs p.

(** [n] frames with the pointer held still. *)
Fixpoint still (n : nat) (welcome : bool) (mouse : Mouse) (p : PaddleState)
  : PaddleState :=
  match n with
  | O => p
  | S n' => useFrame welcome mouse (still n' welcome mouse p)
  end.

End Paddle.

(** ** What the components render from the store *)

Module Scene.

Import Store.

(** The parts of the rendered tree that depend on the store. *)
Record View : Type := mkView {
  ball : bool;               (* {!welcome && <Ball />} *)
  startup_display : string;  (* display: welcome ? "block" : "none" *)
  paddle_count : Z           (* children={count.toString()} *)
}.

Definition render (s : GameState) : View :=
  {| ball := negb (welcome s);
     startup_display := if welcome s then "block"%string else "none"%string;
     paddle_count := count s |}.

End Scene.

(** ** Tallies over a sequence of events *)

Module Tally.

Import Store.

(** A paddle hit, at any velocity. *)
Definition is_hit (e : Event) : bool :=
  match e with
  | PaddleCollide _ => true
  | _ => false
  end.

(** A paddle hit that passes the [velocity > 4] test. *)
Definition is_fast (e : Event) : bool :=
  match e with
  | PaddleCollide impactVelocity => gt4 impactVelocity
  | _ => false
  end.

Definition hits (es : list Event) : nat := length (filter is_hit es).

Definition fast_hits (es : list Event) : Z :=
  Z.of_nat (length (filter is_fast es)).

End Tally.

(** * Properties of the store *)

Import Store.

(** ** What each operation does to the store *)

Lemma pong_store (velocity : Q) (w : World) :
  store (exec (pong velocity) w) =
  if gt4 velocity
  then {| count := count (store w) + 1; welcome := welcome (store w) |}
  else store w.
Proof.
  unfold pong, exec, bind. cbn.
  destruct (gt4 velocity); reflexivity.
Qed.

Lemma reset_store (b : bool) (w : World) :
  store (exec (reset b) w) =
  {| count := if b then count (store w) else 0; welcome := b |}.
Proof. reflexivity. Qed.

Lemma onClick_store (w : World) :
  store (exec onClick w) =
  if welcome (store w) then {| count := 0; welcome := false |} else store w.
Proof.
  unfold onClick, exec. destruct (welcome (store w)); reflexivity.
Qed.

Lemma gt4_true (velocity : Q) : gt4 velocity = true <-> (4 < velocity)%Q.
Proof.
  unfold gt4. rewrite negb_true_iff, <- not_true_iff_false, Qle_bool_iff.
  split; [apply Qnot_le_lt | apply Qlt_not_le].
Qed.

Lemma gt4_false (velocity : Q) : gt4 velocity = false <-> (velocity <= 4)%Q.
Proof.
  unfold gt4. rewrite negb_false_iff. apply Qle_bool_iff.
Qed.

(** The score is never negative in a world that the handlers can
    produce from the startup world. *)
Lemma step_count_nonneg (w : World) (e : Event) :
  0 <= count (store w) -> 0 <= count (store (step w e)).
Proof.
  intros H. destruct e as [v | | ]; unfold step, handle.
  - rewrite pong_store. destruct (gt4 v); cbn; lia.
  - rewrite reset_store. cbn. exact H.
  - rewrite onClick_store. destruct (welcome (store w)); cbn; lia.
Qed.

Lemma run_snoc (es : list Event) (e : Event) (w : World) :
  run (es ++ [e]) w = step (run es w) e.
Proof. unfold run. rewrite fold_left_app. reflexivity. Qed.

(** X1: the score is never negative in any world the handlers
    can produce from the startup world. *)
Lemma run_count_nonneg (es : list Event) :
  0 <= count (store (run es world0)).
Proof.
  induction es as [| e es IH] using rev_ind.
  - cbn. lia.
  - rewrite run_snoc. apply step_count_nonneg, IH.
Qed.

(** [clamp] agrees with the spec's [max(lower, min(upper, number))]
    whenever the bounds are in order. *)
Lemma clamp_max_min (number lower upper : Q) :
  (lower <= upper)%Q ->
  (clamp number lower upper == Qmax lower (Qmin upper number))%Q.
Proof.
  intros Hb. unfold clamp.
  destruct (Qle_bool number upper) eqn:Hu.
  - apply Qle_bool_iff in Hu.
    rewrite (Q.min_r upper number Hu).
    destruct (Qle_bool lower number) eqn:Hl.
    + apply Qle_bool_iff in Hl. rewrite (Q.max_r _ _ Hl). reflexivity.
    + assert (Hlt : (number < lower)%Q).
      { apply Qnot_le_lt. intros Hle. apply Qle_bool_iff in Hle. congruence. }
      rewrite (Q.max_l lower number (Qlt_le_weak _ _ Hlt)). reflexivity.
  - assert (Hlt : (upper < number)%Q).
    { apply Qnot_le_lt. intros Hle. apply Qle_bool_iff in Hle. congruence. }
    rewrite (Q.min_l upper number (Qlt_le_weak _ _ Hlt)).
    destruct (Qle_bool lower upper) eqn:Hl.
    + rewrite (Q.max_r _ _ Hb). reflexivity.
    + apply Qle_bool_iff in Hb. congruence.
Qed.

(** ** C1 *)

(** C1, as the spec states it, fails: after a click and one fast hit the
    score is 1, and the ground contact ([reset(true)]) leaves it at 1. *)
Lemma reset_true_zero_count_cex :
  let w := run [Click; PaddleCollide 10] world0 in
  store w = {| count := 1; welcome := false |} /\
  store (step w GroundCollide) = {| count := 1; welcome := true |} /\
  ~ (welcome (store (exec (reset true) w)) = true /\
     count (store (exec (reset true) w)) = 0).
Proof.
  cbv zeta. split; [reflexivity | split; [reflexivity |]].
  intros [_ H]. vm_compute in H. discriminate H.
Qed.

(** C1 (amended): for every prior state, [reset(true)] sets [welcome]
    to [true] and leaves [count] as it was; a ball-ground contact, which
    calls [reset(true)] unconditionally, therefore yields
    [{count: prior count, welcome: true}]. *)
Theorem reset_true_keeps_count (w : World) :
  welcome (store (exec (reset true) w)) = true /\
  count (store (exec (reset true) w)) = count (store w) /\
  store (step w GroundCollide) =
    {| count := count (store w); welcome := true |}.
Proof. repeat split. Qed.

(** ** C2 *)

(** C2, as the spec states it, fails: after a click, one fast hit and a
    ground contact the store is [{count: 1, welcome: true}], and
    [reset(false)] then gives score 0. *)
Lemma reset_false_keeps_count_cex :
  let w := run [Click; PaddleCollide 10; GroundCollide] world0 in
  store w = {| count := 1; welcome := true |} /\
  store (exec (reset false) w) = {| count := 0; welcome := false |} /\
  ~ (welcome (store (exec (reset false) w)) = false /\
     count (store (exec (reset false) w)) = count (store w)).
Proof.
  cbv zeta. split; [reflexivity | split; [reflexivity |]].
  intros [_ H]. vm_compute in H. discriminate H.
Qed.

(** C2 (amended): for every prior state, [reset(false)] sets [welcome]
    to [false] and sets [count] to 0. *)
Theorem reset_false_clears_count (w : World) :
  welcome (store (exec (reset false) w)) = false /\
  count (store (exec (reset false) w)) = 0.
Proof. split; reflexivity. Qed.

(** ** C3 *)

(** C3, as the spec states it, fails on its first half: the score is
    still 1 when the ground contact turns [welcome] from [false] to
    [true]. *)
Lemma count_zero_on_welcome_cex :
  ~ (forall (es : list Event) (e : Event),
       let w := run es world0 in
       let w' := step w e in
       (welcome (store w) = false -> welcome (store w') = true ->
        count (store w') = 0) /\
       (welcome (store w) = false -> welcome (store w') = false ->
        count (store w) <= count (store w'))).
Proof.
  intros H.
  destruct (H [Click; PaddleCollide 10] GroundCollide) as [H0 _].
  specialize (H0 eq_refl eq_refl). vm_compute in H0. discriminate H0.
Qed.

(** C3 (amended): in every state reachable from the initial state by the
    three handlers, and for every next event: [count] keeps its value
    when [welcome] turns from [false] to [true], [count] becomes 0 when
    [welcome] turns from [true] to [false], and [count] does not
    decrease across an event that leaves [welcome] at [false]. *)
Theorem count_across_welcome (es : list Event) (e : Event) :
  let w := run es world0 in
  let w' := step w e in
  (welcome (store w) = false -> welcome (store w') = true ->
   count (store w') = count (store w)) /\
  (welcome (store w) = true -> welcome (store w') = false ->
   count (store w') = 0) /\
  (welcome (store w) = false -> welcome (store w') = false ->
   count (store w) <= count (store w')).
Proof.
  cbv zeta. generalize (run es world0). intros w.
  unfold step, handle. destruct e as [v | | ].
  - rewrite pong_store.
    destruct (gt4 v); cbn; repeat split; intros; try congruence; lia.
  - rewrite reset_store. cbn. repeat split; intros; congruence.
  - rewrite onClick_store.
    destruct (welcome (store w)) eqn:Hw; cbn;
      repeat split; intros; try congruence; lia.
Qed.

Lemma count_across_welcome_witness :
  let w := run [Click; PaddleCollide 10] world0 in
  count (store (step w GroundCollide)) = count (store w) /\
  count (store (step world0 Click)) = 0 /\
  count (store w) <= count (store (step w (PaddleCollide 10))).
Proof.
  cbv zeta. split; [| split].
  - apply (count_across_welcome [Click; PaddleCollide 10] GroundCollide);
      reflexivity.
  - apply (count_across_welcome [] Click); reflexivity.
  - apply (count_across_welcome [Click; PaddleCollide 10] (PaddleCollide 10));
      reflexivity.
Defined.

(** ** C4 *)

(** C4: for every velocity and every prior state, [pong(velocity)]
    leaves [count] unchanged when [velocity <= 4] and increases it by
    exactly 1 when [velocity > 4]. *)
Theorem pong_count (velocity : Q) (w : World) :
  ((velocity <= 4)%Q ->
   count (store (exec (pong velocity) w)) = count (store w)) /\
  ((4 < velocity)%Q ->
   count (store (exec (pong velocity) w)) = count (store w) + 1).
Proof.
  rewrite pong_store. split; intros H.
  - apply gt4_false in H. rewrite H. reflexivity.
  - apply gt4_true in H. rewrite H. reflexivity.
Qed.

Lemma pong_count_witness :
  count (store (exec (pong 2) (run [Click; PaddleCollide 10] world0))) = 1 /\
  count (store (exec (pong 10) (run [Click] world0))) = 0 + 1.
Proof.
  split.
  - apply (pong_count 2 (run [Click; PaddleCollide 10] world0)).
    vm_compute. discriminate.
  - apply (pong_count 10 (run [Click] world0)). reflexivity.
Defined.

(** ** C5 *)

(** C5: [pong] is the only store operation that can increase [count].
    On every state whose score is not negative, [reset(b)] never gives a
    score above the prior one, for either [b]; [pong(velocity)] never
    lowers the score and does raise it for some velocity. *)
Theorem only_pong_raises_count (w : World) (Hcount : 0 <= count (store w)) :
  (forall b : bool, count (store (exec (reset b) w)) <= count (store w)) /\
  (forall velocity : Q,
     count (store w) <= count (store (exec (pong velocity) w))) /\
  (exists velocity : Q,
     count (store w) < count (store (exec (pong velocity) w))).
Proof.
  split; [| split].
  - intros b. rewrite reset_store. destruct b; cbn; lia.
  - intros v. rewrite pong_store. destruct (gt4 v); cbn; lia.
  - exists 5%Q. rewrite pong_store. cbn. lia.
Qed.

Lemma only_pong_raises_count_witness :
  let w := run [Click; PaddleCollide 10] world0 in
  0 <= count (store w) /\
  (forall b : bool, count (store (exec (reset b) w)) <= count (store w)).
Proof.
  cbv zeta. split.
  - vm_compute. discriminate.
  - apply (only_pong_raises_count (run [Click; PaddleCollide 10] world0)).
    vm_compute. discriminate.
Defined.

(** ** C9 *)

(** C9: a click calls [reset(false)] only while [welcome] is [true]: it
    is [reset(false)] then, and it changes nothing (store, audio
    element, effects) while [welcome] is [false]; from
    [{count: 0, welcome: true}] it yields [{count: 0, welcome: false}]. *)
Theorem click_guard (w : World) :
  (welcome (store w) = true -> exec onClick w = exec (reset false) w) /\
  (welcome (store w) = false -> exec onClick w = w) /\
  (store w = initial ->
   store (step w Click) = {| count := 0; welcome := false |}).
Proof.
  unfold step, handle, onClick, exec. repeat split; intros H.
  - rewrite H. reflexivity.
  - rewrite H. reflexivity.
  - rewrite H. reflexivity.
Qed.

Lemma click_guard_witness :
  exec onClick world0 = exec (reset false) world0 /\
  exec onClick (run [Click] world0) = run [Click] world0 /\
  store (step world0 Click) = {| count := 0; welcome := false |}.
Proof.
  split; [| split].
  - apply (click_guard world0). reflexivity.
  - apply (click_guard (run [Click] world0)). reflexivity.
  - apply (click_guard world0). reflexivity.
Defined.

(** ** C10 *)

(** C10: for every velocity and every prior state, [pong(velocity)]
    leaves [welcome] unchanged. *)
Theorem pong_keeps_welcome (velocity : Q) (w : World) :
  welcome (store (exec (pong velocity) w)) = welcome (store w).
Proof.
  rewrite pong_store. destruct (gt4 velocity); reflexivity.
Qed.

(** ** C6 *)

(** C6: for every velocity, above 4 or not, [pong(velocity)] leaves the
    cue rewound to time 0, with volume [max(0, min(1, velocity / 20))]
    and played once more; the three audio effects come first, in the
    source's order, and the score update, when there is one, comes
    after them. *)
Theorem pong_audio (velocity : Q) (w : World) :
  let w' := exec (pong velocity) w in
  currentTime (ping w') = 0%Q /\
  (volume (ping w') == Qmax 0 (Qmin 1 (velocity / 20)))%Q /\
  plays (ping w') = S (plays (ping w)) /\
  trace w' =
    trace w
    ++ [SetCurrentTime 0; SetVolume (clamp (velocity / 20) 0 1); Play]
    ++ (if gt4 velocity
        then [SetState {| p_count := Some (count (store w) + 1);
                          p_welcome := None |}]
        else []).
Proof.
  cbv zeta. unfold pong, exec, bind. cbn.
  destruct (gt4 velocity); cbn.
  - repeat split.
    + apply clamp_max_min. discriminate.
    + rewrite <- !app_assoc. reflexivity.
  - repeat split.
    + apply clamp_max_min. discriminate.
    + rewrite <- !app_assoc. reflexivity.
Qed.

(** * Properties of the paddle's frame callback *)

Import Paddle.

Local Open Scope Q_scope.

(** ** C7 *)

Lemma frames_snoc (fs : list Frame) (f : Frame) (p : PaddleState) :
  frames (fs ++ [f]) p = useFrame (fst f) (snd f) (frames fs p).
Proof. unfold frames. rewrite fold_left_app. reflexivity. Qed.

(** Both slots of [values.current] hold the same number after any
    sequence of frames from the first render. *)
Lemma values_equal (fs : list Frame) :
  values0 (frames fs paddle0) = values1 (frames fs paddle0).
Proof.
  induction fs as [| f fs IH] using rev_ind.
  - reflexivity.
  - rewrite frames_snoc. cbn. rewrite IH. reflexivity.
Qed.

(** C7: on every frame the body's position is written from the raw
    pointer as [(x * 10, y * 5, 0)] and its rotation as
    [(0, 0, values[1])]; both slots of the smoothed pair are lerped with
    factor 0.2 toward the same target [x * PI / 5]; and, from the
    initial pair [(0, 0)], the two slots are equal on every frame. *)
Theorem useFrame_pose (fs : list Frame) (welcome : bool) (mouse : Mouse) :
  let p := frames fs paddle0 in
  let p' := useFrame welcome mouse p in
  position p' = {| vx := x mouse * 10; vy := y mouse * 5; vz := 0 |} /\
  rotation p' = {| vx := 0; vy := 0; vz := values1 p' |} /\
  values0 p' = lerp (values0 p) (x mouse * Math_PI / 5) (2 # 10) /\
  values1 p' = lerp (values1 p) (x mouse * Math_PI / 5) (2 # 10) /\
  values0 p' = values1 p'.
Proof.
  cbv zeta. repeat split.
  cbn. rewrite (values_equal fs). reflexivity.
Qed.

(** ** C8 *)

(** One smoothing step shrinks the distance to the target by 0.8. *)
Lemma lerp_step (v T : Q) : lerp v T factor - T == (v - T) * (8 # 10).
Proof. unfold lerp, factor. field. Qed.

Lemma Qpower_succ (a : Q) (n : nat) :
  a ^ Z.of_nat (S n) == a * a ^ Z.of_nat n.
Proof.
  rewrite Nat2Z.inj_succ, <- Z.add_1_l.
  rewrite Qpower_plus' by lia. rewrite Qpower_1_r. reflexivity.
Qed.

Lemma still_values0 (n : nat) (welcome : bool) (mouse : Mouse)
      (p : PaddleState) :
  values0 (still n welcome mouse p) - target mouse ==
  (values0 p - target mouse) * (8 # 10) ^ Z.of_nat n.
Proof.
  induction n as [| n IH].
  - cbn. ring.
  - cbn [still useFrame values0]. rewrite lerp_step, IH, Qpower_succ. ring.
Qed.

Lemma still_values1 (n : nat) (welcome : bool) (mouse : Mouse)
      (p : PaddleState) :
  values1 (still n welcome mouse p) - target mouse ==
  (values1 p - target mouse) * (8 # 10) ^ Z.of_nat n.
Proof.
  induction n as [| n IH].
  - cbn. ring.
  - cbn [still useFrame values1]. rewrite lerp_step, IH, Qpower_succ. ring.
Qed.

Lemma shrink_never_zero (d : Q) (n : nat) :
  ~ d == 0 -> ~ d * (8 # 10) ^ Z.of_nat n == 0.
Proof.
  intros Hd H. apply Qmult_integral in H. destruct H as [H | H].
  - exact (Hd H).
  - revert H. apply Qpower_not_0. discriminate.
Qed.

(** C8: with the pointer held still, so that the target [T] is constant,
    each slot of the smoothed pair after [n] frames from the value [v0]
    equals [T + (v0 - T) * 0.8^n], over exact rationals; hence a slot
    that starts away from [T] is never at [T] after finitely many
    frames. *)
Theorem smoothing_law (n : nat) (welcome : bool) (mouse : Mouse)
        (p : PaddleState) :
  let T := target mouse in
  let p' := still n welcome mouse p in
  values0 p' == T + (values0 p - T) * (8 # 10) ^ Z.of_nat n /\
  values1 p' == T + (values1 p - T) * (8 # 10) ^ Z.of_nat n /\
  (~ values0 p == T -> ~ values0 p' == T) /\
  (~ values1 p == T -> ~ values1 p' == T).
Proof.
  cbv zeta.
  pose proof (still_values0 n welcome mouse p) as H0.
  pose proof (still_values1 n welcome mouse p) as H1.
  repeat split.
  - rewrite <- H0. ring.
  - rewrite <- H1. ring.
  - intros Hne Heq.
    apply (shrink_never_zero (values0 p - target mouse) n).
    + intros Hd. apply Hne. rewrite <- (Qplus_0_l (target mouse)), <- Hd. ring.
    + rewrite <- H0, Heq. ring.
  - intros Hne Heq.
    apply (shrink_never_zero (values1 p - target mouse) n).
    + intros Hd. apply Hne. rewrite <- (Qplus_0_l (target mouse)), <- Hd. ring.
    + rewrite <- H1, Heq. ring.
Qed.

Lemma smoothing_law_witness :
  let mouse := {| x := 1; y := 0 |} in
  let p' := still 3 false mouse paddle0 in
  values0 p' == target mouse + (0 - target mouse) * (8 # 10) ^ 3 /\
  ~ values0 p' == target mouse /\
  ~ values1 p' == target mouse.
Proof.
  cbv zeta. split; [| split].
  - apply (smoothing_law 3 false {| x := 1; y := 0 |} paddle0).
  - apply (smoothing_law 3 false {| x := 1; y := 0 |} paddle0).
    vm_compute. discriminate.
  - apply (smoothing_law 3 false {| x := 1; y := 0 |} paddle0).
    vm_compute. discriminate.
Defined.

(** ** Scenarios *)

(** Start, click, a hit at velocity 10, a hit at velocity 2: the score
    is 1 after the first hit and stays 1 after the second. *)
Example rally_scores :
  store (run [Click; PaddleCollide 10] world0)
    = {| count := 1; welcome := false |} /\
  store (run [Click; PaddleCollide 10; PaddleCollide 2] world0)
    = {| count := 1; welcome := false |}.
Proof. split; reflexivity. Qed.

(** The next game starts from score 0: the click after a lost rally
    clears the score that the welcome screen was still showing. *)
Example restart_clears_score :
  store (run [Click; PaddleCollide 10; GroundCollide; Click] world0)
    = {| count := 0; welcome := false |}.
Proof. reflexivity. Qed.

(** A hit at velocity 10 plays the cue at half volume; one at velocity
    30 plays it at full volume. *)
Example hit_volume :
  volume (ping (exec (pong 10) world0)) == 1 # 2 /\
  volume (ping (exec (pong 30) world0)) == 1.
Proof. split; reflexivity. Qed.

(** The interpolation written the other usual way,
    [v0 * (1 - t) + v1 * t], is the same number. *)
Remark lerp_weighted (v0 v1 t : Q) : lerp v0 v1 t == v0 * (1 - t) + v1 * t.
Proof. unfold lerp. ring. Qed.

(** * Further properties of the store and its handlers *)

Import Tally Scene.

Local Open Scope Z_scope.

Lemma run_cons (e : Event) (es : list Event) (w : World) :
  run (e :: es) w = run es (step w e).
Proof. reflexivity. Qed.

Lemma step_store_pong (v : Q) (w : World) :
  store (step w (PaddleCollide v)) =
  {| count := count (store w) + (if gt4 v then 1 else 0);
     welcome := welcome (store w) |}.
Proof.
  unfold step, handle. rewrite pong_store.
  destruct (store w) as [c b]. destruct (gt4 v); cbn; f_equal; lia.
Qed.

Lemma step_store_ground (w : World) :
  store (step w GroundCollide) =
  {| count := count (store w); welcome := true |}.
Proof. reflexivity. Qed.

(** A rally: the hits add up, and nothing else changes in the store. *)
Lemma rally_store (vs : list Q) (w : World) :
  store (run (map PaddleCollide vs) w) =
  {| count := count (store w) + Z.of_nat (length (filter gt4 vs));
     welcome := welcome (store w) |}.
Proof.
  revert w. induction vs as [| v vs IH]; intros w.
  - cbn. destruct (store w). cbn. f_equal. lia.
  - cbn [map]. rewrite run_cons, IH, step_store_pong. cbn [count welcome].
    cbn [filter]. destruct (gt4 v); cbn [length]; f_equal; lia.
Qed.

(** X2: The score of a game: from the welcome screen, whatever score it
    still shows, a click followed by any hits leaves exactly the number
    of hits faster than 4 as the score, and the ground contact that ends
    the game keeps that score on the welcome screen. *)
Theorem game_score (vs : list Q) (w : World)
        (Hwelcome : welcome (store w) = true) :
  store (run (Click :: map PaddleCollide vs) w) =
    {| count := Z.of_nat (length (filter gt4 vs)); welcome := false |} /\
  store (run (Click :: map PaddleCollide vs ++ [GroundCollide]) w) =
    {| count := Z.of_nat (length (filter gt4 vs)); welcome := true |}.
Proof.
  assert (Hclick : store (step w Click) = {| count := 0; welcome := false |}).
  { unfold step, handle. rewrite onClick_store, Hwelcome. reflexivity. }
  split.
  - rewrite run_cons, rally_store, Hclick. reflexivity.
  - rewrite run_cons, run_snoc, step_store_ground, rally_store, Hclick.
    reflexivity.
Qed.

Lemma game_score_witness :
  let w := run [Click; PaddleCollide 10; GroundCollide] world0 in
  store (run (Click :: map PaddleCollide [5; 3; 7; 4]%Q) w) =
    {| count := 2; welcome := false |} /\
  store (run (Click :: map PaddleCollide [5; 3; 7; 4]%Q ++ [GroundCollide]) w) =
    {| count := 2; welcome := true |}.
Proof.
  cbv zeta.
  apply (game_score [5; 3; 7; 4]%Q
           (run [Click; PaddleCollide 10; GroundCollide] world0)).
  reflexivity.
Defined.

Lemma step_count_le (w : World) (e : Event) :
  0 <= count (store w) ->
  count (store (step w e)) <=
  count (store w) + (if is_fast e then 1 else 0).
Proof.
  intros H. destruct e as [v | | ].
  - rewrite step_store_pong. cbn. lia.
  - unfold step, handle. rewrite reset_store. cbn. lia.
  - unfold step, handle. rewrite onClick_store.
    destruct (welcome (store w)); cbn; lia.
Qed.

Lemma fast_hits_snoc (es : list Event) (e : Event) :
  fast_hits (es ++ [e]) = fast_hits es + (if is_fast e then 1 else 0).
Proof.
  unfold fast_hits. rewrite filter_app, length_app. cbn [filter].
  destruct (is_fast e); cbn [length]; lia.
Qed.

Lemma run_count_nonneg_from (es : list Event) (w : World) :
  0 <= count (store w) -> 0 <= count (store (run es w)).
Proof.
  intros H. induction es as [| e es IH] using rev_ind.
  - exact H.
  - rewrite run_snoc. apply step_count_nonneg, IH.
Qed.

(** X3: The score never exceeds the number of hits faster than 4 received
    since startup. *)
Theorem score_bounded_by_fast_hits (es : list Event) :
  count (store (run es world0)) <= fast_hits es.
Proof.
  induction es as [| e es IH] using rev_ind.
  - cbn. lia.
  - rewrite run_snoc, fast_hits_snoc.
    pose proof (step_count_le (run es world0) e (run_count_nonneg_from es world0 (Z.le_refl 0))).
    lia.
Qed.

(** ** The audio element *)

Lemma step_ping (w : World) (e : Event) :
  ping (step w e) =
  match e with
  | PaddleCollide v =>
      {| currentTime := 0%Q; volume := clamp (v / 20) 0 1;
         plays := S (plays (ping w)) |}
  | _ => ping w
  end.
Proof.
  destruct e as [v | | ]; unfold step, handle.
  - unfold pong, exec, bind. cbn. destruct (gt4 v); reflexivity.
  - reflexivity.
  - unfold onClick, exec. destruct (welcome (store w)); reflexivity.
Qed.

(** X4: The cue is played once per paddle hit, slow hits included, and by
    nothing else: neither a ground contact nor a click touches it. *)
Theorem plays_once_per_hit (es : list Event) (w : World) :
  plays (ping (run es w)) = (plays (ping w) + hits es)%nat /\
  ping (step w GroundCollide) = ping w /\
  ping (step w Click) = ping w.
Proof.
  split; [| split; apply step_ping].
  induction es as [| e es IH] using rev_ind.
  - cbn. lia.
  - rewrite run_snoc, step_ping. unfold hits in *.
    rewrite filter_app, length_app. destruct e; cbn; lia.
Qed.

Lemma clamp_bounds (number lower upper : Q) :
  (lower <= upper)%Q ->
  (lower <= clamp number lower upper <= upper)%Q.
Proof.
  intros Hb. unfold clamp.
  destruct (Qle_bool number upper) eqn:Hu.
  - destruct (Qle_bool lower number) eqn:Hl.
    + apply Qle_bool_iff in Hu, Hl. split; assumption.
    + split; [apply Qle_refl | exact Hb].
  - destruct (Qle_bool lower upper) eqn:Hl.
    + split; [exact Hb | apply Qle_refl].
    + split; [apply Qle_refl | exact Hb].
Qed.

(** X5: The volume of the cue is within [0, 1] in every world the handlers
    can produce from startup, whatever the impact velocities. *)
Theorem volume_in_range (es : list Event) :
  (0 <= volume (ping (run es world0)) <= 1)%Q.
Proof.
  induction es as [| e es IH] using rev_ind.
  - cbn. split; discriminate.
  - rewrite run_snoc, step_ping. destruct e as [v | | ]; try exact IH.
    cbn. apply clamp_bounds. discriminate.
Qed.

Lemma clamp_inside (number lower upper : Q) :
  (lower <= number)%Q -> (number <= upper)%Q ->
  clamp number lower upper = number.
Proof.
  intros Hl Hu. unfold clamp.
  apply Qle_bool_iff in Hu. rewrite Hu.
  apply Qle_bool_iff in Hl. rewrite Hl. reflexivity.
Qed.

Lemma Qle_bool_false (a b : Q) : Qle_bool a b = false -> (b < a)%Q.
Proof.
  intros H. apply Qnot_le_lt. intros Hle.
  apply Qle_bool_iff in Hle. congruence.
Qed.

(** X6: How loud a hit is: silent at velocity 0 or below, [velocity / 20]
    between 0 and 20, full volume from 20 up; a hit that scores
    ([velocity > 4]) is always louder than 1/5. *)
Theorem hit_loudness (velocity : Q) (w : World) :
  let vol := volume (ping (exec (pong velocity) w)) in
  ((velocity <= 0)%Q -> (vol == 0)%Q) /\
  ((0 <= velocity)%Q -> (velocity <= 20)%Q -> vol = (velocity / 20)%Q) /\
  ((20 <= velocity)%Q -> (vol == 1)%Q) /\
  ((4 < velocity)%Q -> (1 # 5 < vol)%Q).
Proof.
  cbv zeta.
  assert (Hvol : volume (ping (exec (pong velocity) w))
                 = clamp (velocity / 20) 0 1).
  { change (exec (pong velocity) w) with (step w (PaddleCollide velocity)).
    rewrite step_ping. reflexivity. }
  rewrite Hvol. clear Hvol.
  assert (Hdiv : (velocity / 20 == velocity * (1 # 20))%Q) by field.
  revert Hdiv. generalize (velocity / 20)%Q. intros x Hx.
  unfold clamp.
  destruct (Qle_bool x 1) eqn:Hu;
    [apply Qle_bool_iff in Hu | apply Qle_bool_false in Hu];
    (destruct (Qle_bool 0 _) eqn:Hl;
     [apply Qle_bool_iff in Hl | apply Qle_bool_false in Hl]);
    repeat split; intros; try reflexivity; lra.
Qed.

Lemma hit_loudness_witness :
  (volume (ping (exec (pong (-3)) world0)) == 0)%Q /\
  volume (ping (exec (pong 10) world0)) = (10 / 20)%Q /\
  (volume (ping (exec (pong 30) world0)) == 1)%Q /\
  (1 # 5 < volume (ping (exec (pong 5) world0)))%Q.
Proof.
  split; [| split; [| split]].
  - apply (hit_loudness (-3) world0). vm_compute. discriminate.
  - apply (hit_loudness 10 world0); vm_compute; discriminate.
  - apply (hit_loudness 30 world0). vm_compute. discriminate.
  - apply (hit_loudness 5 world0). reflexivity.
Defined.

(** ** How the handlers compose *)

(** X7: A second click in a row changes nothing at all (no store write, no
    effect), and a second ground contact in a row leaves the store as
    the first one left it. *)
Theorem repeated_event_is_idle (w : World) :
  step (step w Click) Click = step w Click /\
  store (step (step w GroundCollide) GroundCollide) =
    store (step w GroundCollide).
Proof.
  split; [| reflexivity].
  unfold step, handle, onClick, exec.
  destruct (welcome (store w)) eqn:Hw.
  - reflexivity.
  - cbn. rewrite Hw. reflexivity.
Qed.


(** X9: A click and a paddle hit do not commute: from the welcome screen,
    a hit faster than 4 that comes before the click is wiped by it,
    one that comes after it counts. *)
Theorem click_and_hit_order (velocity : Q) (w : World)
        (Hwelcome : welcome (store w) = true) (Hfast : (4 < velocity)%Q) :
  store (run [PaddleCollide velocity; Click] w) =
    {| count := 0; welcome := false |} /\
  store (run [Click; PaddleCollide velocity] w) =
    {| count := 1; welcome := false |}.
Proof.
  apply gt4_true in Hfast. cbn [run fold_left]. split.
  - unfold step at 1. unfold handle. rewrite onClick_store.
    rewrite step_store_pong. cbn [welcome]. rewrite Hwelcome. reflexivity.
  - rewrite step_store_pong, Hfast. unfold step, handle.
    rewrite onClick_store, Hwelcome. reflexivity.
Qed.

Lemma click_and_hit_order_witness :
  store (run [PaddleCollide 10; Click] world0) =
    {| count := 0; welcome := false |} /\
  store (run [Click; PaddleCollide 10] world0) =
    {| count := 1; welcome := false |}.
Proof. apply (click_and_hit_order 10 world0); reflexivity. Defined.

(** ** What is shown *)

(** X10: After a click the ball is in the scene and the start-up banner is
    hidden, whatever the state before; after a ground contact the ball
    is out of the scene and the banner is shown; a paddle hit changes
    neither, and the paddle shows the score with the hit counted. *)
Theorem view_after_event (w : World) (velocity : Q) :
  let shown := fun w' => render (store w') in
  (ball (shown (step w Click)) = true /\
   startup_display (shown (step w Click)) = "none"%string) /\
  (ball (shown (step w GroundCollide)) = false /\
   startup_display (shown (step w GroundCollide)) = "block"%string /\
   paddle_count (shown (step w GroundCollide)) = count (store w)) /\
  (ball (shown (step w (PaddleCollide velocity))) = ball (shown w) /\
   startup_display (shown (step w (PaddleCollide velocity))) =
     startup_display (shown w) /\
   paddle_count (shown (step w (PaddleCollide velocity))) =
     count (store w) + (if gt4 velocity then 1 else 0)).
Proof.
  cbv zeta. split; [| split].
  - unfold step, handle. rewrite onClick_store.
    destruct (welcome (store w)) eqn:Hw; cbn; rewrite ?Hw; split; reflexivity.
  - repeat split.
  - rewrite step_store_pong. repeat split.
Qed.

(** * Further properties of the paddle's frame callback *)

Local Open Scope Q_scope.

(** X11: On every frame the decorative model's yaw equals the body's roll,
    the body never rotates about its other two axes and never leaves
    the plane [z = 0]. *)
Theorem model_follows_body (fs : list Frame) :
  let p := frames fs paddle0 in
  model_rotation_y p = vz (rotation p) /\
  vx (rotation p) = 0 /\
  vy (rotation p) = 0 /\
  vz (position p) = 0.
Proof.
  cbv zeta. destruct fs as [| f fs] using rev_ind.
  - repeat split.
  - rewrite frames_snoc. cbn. rewrite (values_equal fs). repeat split.
Qed.

(** An interpolation step stays between the bounds that hold the value
    and the target. *)
Lemma lerp_between (lo hi v T : Q) :
  lo <= v <= hi -> lo <= T <= hi -> lo <= lerp v T factor <= hi.
Proof. unfold lerp, factor. intros Hv HT. lra. Qed.

(** X12: The model's tilt stays within [0, PI / 2] on every frame, whatever
    the pointer does and however [welcome] changes. *)
Theorem model_tilt_range (fs : list Frame) :
  0 <= model_rotation_x (frames fs paddle0) <= Math_PI / 2.
Proof.
  induction fs as [| f fs IH] using rev_ind.
  - cbn. split; discriminate.
  - rewrite frames_snoc. cbn [useFrame model_rotation_x].
    apply lerp_between; [exact IH |].
    destruct (fst f); split; discriminate.
Qed.

Lemma model_tilt_distance (welcome : bool) (ms : list Mouse)
      (p : PaddleState) :
  let T := if welcome then Math_PI / 2 else 0 in
  model_rotation_x (frames (map (pair welcome) ms) p) - T ==
  (model_rotation_x p - T) * (8 # 10) ^ Z.of_nat (length ms).
Proof.
  cbv zeta. induction ms as [| m ms IH] using rev_ind.
  - cbn. ring.
  - rewrite map_app, length_app, Nat.add_comm. cbn [map length Nat.add].
    rewrite frames_snoc. cbn [useFrame model_rotation_x fst snd].
    rewrite lerp_step, IH, Qpower_succ. ring.
Qed.

(** X13: With [welcome] unchanged over [n] frames, the model's tilt follows
    the smoothing law toward [PI / 2] (welcome) or [0] (playing),
    whatever the pointer does meanwhile. *)
Theorem model_tilt_law (welcome : bool) (ms : list Mouse) (p : PaddleState) :
  let T := if welcome then Math_PI / 2 else 0 in
  model_rotation_x (frames (map (pair welcome) ms) p) ==
  T + (model_rotation_x p - T) * (8 # 10) ^ Z.of_nat (length ms).
Proof.
  cbv zeta. rewrite <- (model_tilt_distance welcome ms p). cbv zeta. ring.
Qed.

Lemma target_range (m : Mouse) :
  -1 <= x m <= 1 -> - (Math_PI / 5) <= target m <= Math_PI / 5.
Proof.
  intros Hx. unfold target.
  assert (E : x m * Math_PI / 5 == x m * (884279719003555 # 1407374883553280))
    by (unfold Math_PI; field).
  assert (C : Math_PI / 5 == 884279719003555 # 1407374883553280)
    by reflexivity.
  rewrite E, C. lra.
Qed.

(** X14: While the pointer stays in the normalised square [-1, 1] x [-1, 1],
    the smoothed pair and the body's roll stay within [PI / 5] of zero
    (36 degrees) and the body stays within the rectangle
    [-10, 10] x [-5, 5]. *)
Theorem pose_in_range (fs : list Frame)
        (Hpointer : Forall (fun f : Frame =>
                              (-1 <= x (snd f) <= 1) /\
                              (-1 <= y (snd f) <= 1)) fs) :
  let p := frames fs paddle0 in
  - (Math_PI / 5) <= values0 p <= Math_PI / 5 /\
  - (Math_PI / 5) <= values1 p <= Math_PI / 5 /\
  - (Math_PI / 5) <= vz (rotation p) <= Math_PI / 5 /\
  -10 <= vx (position p) <= 10 /\
  -5 <= vy (position p) <= 5.
Proof.
  cbv zeta. induction fs as [| f fs IH] using rev_ind.
  - cbn. repeat split; discriminate.
  - apply Forall_app in Hpointer. destruct Hpointer as [Hfs Hf].
    apply Forall_inv in Hf. destruct Hf as [Hx Hy].
    destruct (IH Hfs) as (H0 & H1 & _).
    rewrite frames_snoc.
    cbn [useFrame values0 values1 rotation position vx vy vz].
    pose proof (target_range (snd f) Hx) as HT.
    pose proof (lerp_between _ _ _ _ H0 HT) as L0.
    pose proof (lerp_between _ _ _ _ H1 HT) as L1.
    split; [exact L0 | split; [exact L1 | split; [exact L1 |]]].
    split; lra.
Qed.

Lemma pose_in_range_witness :
  let fs := [(true, {| x := 1; y := -1 |}); (false, {| x := -1 # 2; y := 1 |})] in
  - (Math_PI / 5) <= vz (rotation (frames fs paddle0)) <= Math_PI / 5 /\
  -10 <= vx (position (frames fs paddle0)) <= 10.
Proof.
  cbv zeta.
  assert (H : Forall (fun f : Frame =>
                        (-1 <= x (snd f) <= 1) /\ (-1 <= y (snd f) <= 1))
                [(true, {| x := 1; y := -1 |});
                 (false, {| x := -1 # 2; y := 1 |})]).
  { repeat constructor; vm_compute; discriminate. }
  split; apply (pose_in_range _ H).
Defined.
